(** * A shallow embedding of [main2.py]: listing location, field
    extraction, record normalisation and the fetch-and-analyze cycle.

    Modelling choices:
    - strings are [String.string], each [ascii] byte read as the Latin-1
      code point of the same number (U+0000 to U+00FF); Python's
      [isdigit], [isspace], [lower] and [strip] are taken on that range;
    - a parsed HTML page is a tree of elements ([elem]); BeautifulSoup's
      [find] and [find_all] search the descendants of a node in document
      order;
    - numeric values of a DataFrame (float64 / int64) are rationals [Q],
      a missing value (NaN) is [None]; binary rounding and the 64-bit
      bounds are not modelled, so the theorems that depend on values
      state the range where these agree with float64 and int64;
    - an exception that escapes a function is [None] in an [option]
      result. *)

From Stdlib Require Import String Ascii List ZArith QArith Bool Lia.
From Stdlib Require Import Sorting.Permutation Sorting.Sorted.
Import ListNotations.

Open Scope string_scope.
#[local] Set Warnings "-register-all".

(* ------------------------------------------------------------------ *)
(** ** Characters and strings (Latin-1 range of Python's [str]) *)

(** The decimal digits '0' to '9': the only characters [int] and [float]
    accept as digits in this range. *)
Definition is_decimal (c : ascii) : bool :=
  let n := nat_of_ascii c in (48 <=? n)%nat && (n <=? 57)%nat.

(** [str.isdigit] on one character: the decimal digits and the
    superscripts 0xB2, 0xB3 and 0xB9 (two, three, one). *)
Definition is_digit (c : ascii) : bool :=
  is_decimal c ||
  (let n := nat_of_ascii c in (n =? 178)%nat || (n =? 179)%nat || (n =? 185)%nat).

(** [str.isspace]: \t \n \v \f \r, the separators 0x1c-0x1f, the space,
    0x85 (next line) and 0xA0 (no-break space). *)
Definition is_space (c : ascii) : bool :=
  let n := nat_of_ascii c in
  ((9 <=? n)%nat && (n <=? 13)%nat) || ((28 <=? n)%nat && (n <=? 32)%nat) ||
  (n =? 133)%nat || (n =? 160)%nat.

(** [str.lower] on one character: 'A'-'Z' and 0xC0-0xDE except 0xD7
    (the multiplication sign) move up by 32. *)
Definition lower_char (c : ascii) : ascii :=
  let n := nat_of_ascii c in
  if ((65 <=? n)%nat && (n <=? 90)%nat) ||
     ((192 <=? n)%nat && (n <=? 222)%nat && negb (n =? 215)%nat)
  then ascii_of_nat (n + 32) else c.

(** [s.lower()] *)
Fixpoint lower (s : string) : string :=
  match s with
  | EmptyString => EmptyString
  | String c r => String (lower_char c) (lower r)
  end.

(** [needle in hay] *)
Fixpoint contains (needle hay : string) : bool :=
  prefix needle hay ||
  match hay with
  | EmptyString => false
  | String _ r => contains needle r
  end.

(** [''.join(c for c in s if p(c))] *)
Fixpoint str_filter (p : ascii -> bool) (s : string) : string :=
  match s with
  | EmptyString => EmptyString
  | String c r => if p c then String c (str_filter p r) else str_filter p r
  end.

Fixpoint lstrip (s : string) : string :=
  match s with
  | String c r => if is_space c then lstrip r else s
  | EmptyString => EmptyString
  end.

Fixpoint str_rev (s : string) : string :=
  match s with
  | EmptyString => EmptyString
  | String c r => str_rev r ++ String c EmptyString
  end.

(** [s.strip()] *)
Definition strip (s : string) : string := str_rev (lstrip (str_rev (lstrip s))).

Definition is_empty (s : string) : bool :=
  match s with EmptyString => true | _ => false end.

Definition digit_value (c : ascii) : Z := Z.of_nat (nat_of_ascii c - 48).

(** Value of a string of decimal digits, read left to right. *)
Fixpoint digits_acc (acc : Z) (s : string) : Z :=
  match s with
  | EmptyString => acc
  | String c r => digits_acc (10 * acc + digit_value c)%Z r
  end.

Definition digits_value (s : string) : Z := digits_acc 0%Z s.

(** [s.isdigit()]: non-empty and every character a digit. *)
Fixpoint all_digits (s : string) : bool :=
  match s with
  | EmptyString => true
  | String c r => is_digit c && all_digits r
  end.

Definition py_isdigit (s : string) : bool := negb (is_empty s) && all_digits s.

Fixpoint all_decimal (s : string) : bool :=
  match s with
  | EmptyString => true
  | String c r => is_decimal c && all_decimal r
  end.

(** Number of decimal digits at the start of [s]. *)
Fixpoint decimal_prefix_length (s : string) : nat :=
  match s with
  | String c r => if is_decimal c then S (decimal_prefix_length r) else O
  | EmptyString => O
  end.

Fixpoint string_of_nat_aux (fuel n : nat) (acc : string) : string :=
  match fuel with
  | O => acc
  | S f =>
      let acc' := String (ascii_of_nat (48 + n mod 10)) acc in
      if (n <? 10)%nat then acc' else string_of_nat_aux f (n / 10) acc'
  end.

(** [str(n)] *)
Definition string_of_nat (n : nat) : string := string_of_nat_aux (S n) n "".

(** [int(s)] (CPython 3.11 and later, default limit of 4300 digits) on the
    non-empty strings of [isdigit] characters the year extractor hands it:
    [inl] the value, or [inr] the message of the [ValueError].  More than
    4300 leading decimal digits trip the limit; otherwise any character
    that is not a decimal digit makes the literal invalid (the message
    shows the first 200 characters of the string's repr). *)
Definition py_int (s : string) : Z + string :=
  if (4300 <? decimal_prefix_length s)%nat then
    inr ("Exceeds the limit (4300 digits) for integer string conversion: value has " ++
         string_of_nat (decimal_prefix_length s) ++
         " digits; use sys.set_int_max_str_digits() to increase the limit")
  else if all_decimal s then inl (digits_value s)
  else inr ("invalid literal for int() with base 10: " ++
            substring 0 200 ("'" ++ s ++ "'")).

(** Split at the first '.': the part before it and, if there is one, the
    part after it. *)
Fixpoint split_dot (s : string) : string * option string :=
  match s with
  | EmptyString => (EmptyString, None)
  | String c r =>
      if Ascii.eqb c "."%char then (EmptyString, Some r)
      else let (a, b) := split_dot r in (String c a, b)
  end.

(** [float(s)] on the strings the price extractor hands it: strings made
    of [isdigit] characters and '.'.  Python accepts decimal digits with
    one optional '.' and at least one digit on either side of it; anything
    else, such as a superscript digit or a second '.', raises [ValueError]
    ([None] here).  The value is the exact decimal, where Python returns
    the nearest float64 (inf from about 309 digits): the two are the same
    number when the decimal is exactly representable, e.g. an integer
    below 2^53. *)
Definition py_float (s : string) : option Q :=
  if negb (forallb (fun c => is_decimal c || Ascii.eqb c "."%char) (list_ascii_of_string s))
  then None
  else
    match split_dot s with
    | (ip, None) =>
        if is_empty ip then None else Some (inject_Z (digits_value ip))
    | (ip, Some fp) =>
        if negb (all_decimal fp) then None
        else if is_empty ip && is_empty fp then None
        else Some (inject_Z (digits_value ip) +
                   inject_Z (digits_value fp) /
                   inject_Z (10 ^ Z.of_nat (String.length fp)))%Q
    end.

(* ------------------------------------------------------------------ *)
(** ** Parsed pages (BeautifulSoup) *)

(** An element: tag name, class attribute split into its values (empty
    when the element has no class), the text directly inside it and its
    child elements.  A page is the root element of the parse. *)
Inductive elem : Type :=
| El (tag : string) (cls : list string) (own_text : string) (kids : list elem).

Definition tag_of (e : elem) : string := match e with El t _ _ _ => t end.
Definition cls_of (e : elem) : list string := match e with El _ c _ _ => c end.

(** Descendants in document order (pre-order), the node itself excluded. *)
Fixpoint descendants (e : elem) : list elem :=
  match e with
  | El _ _ _ ks =>
      (fix go (ks : list elem) : list elem :=
         match ks with
         | [] => []
         | k :: r => k :: descendants k ++ go r
         end) ks
  end.

(** [e.text]: all text inside the element, in document order. *)
Fixpoint text (e : elem) : string :=
  match e with
  | El _ _ t ks =>
      t ++ (fix go (ks : list elem) : string :=
              match ks with
              | [] => EmptyString
              | k :: r => text k ++ go r
              end) ks
  end.

(** How BeautifulSoup matches a [class_] filter against the class
    attribute: with no class the filter sees [None]; otherwise it matches
    when one value matches or the space-joined attribute matches. *)
Definition class_matches (f : option string -> bool) (cls : list string) : bool :=
  match cls with
  | [] => f None
  | _ => existsb (fun c => f (Some c)) cls || f (Some (String.concat " " cls))
  end.

(** [class_='name'] *)
Definition class_is (n : string) (x : option string) : bool :=
  match x with Some c => String.eqb c n | None => false end.

(** [class_=lambda x: x and 'sub' in x.lower()] *)
Definition class_has (sub : string) (x : option string) : bool :=
  match x with
  | Some c => negb (is_empty c) && contains sub (lower c)
  | None => false
  end.

Definition has_tag (t : string) (e : elem) : bool := String.eqb (tag_of e) t.
Definition has_class (f : option string -> bool) (e : elem) : bool :=
  class_matches f (cls_of e).

(** [node.find(...)]: first matching descendant. *)
Definition find (p : elem -> bool) (node : elem) : option elem :=
  List.find p (descendants node).

(** [node.find_all(...)]: all matching descendants, in document order. *)
Definition find_all (p : elem -> bool) (node : elem) : list elem :=
  List.filter p (descendants node).

(** Python's [a or b] on a found element or [None]. *)
Definition or_else {A} (a b : option A) : option A :=
  match a with Some x => Some x | None => b end.

(* ------------------------------------------------------------------ *)
(** ** Listing Locator *)

Inductive locator_rule : Type :=
| JijiRule | ChekiRule | Cars45Rule | GenericFallbackRule.

(** The [if "jiji.ng" in url ... elif ... else] dispatch of
    [fetch_car_data]. *)
Definition select_rule (url : string) : locator_rule :=
  if contains "jiji.ng" url then JijiRule
  else if contains "cheki" url then ChekiRule
  else if contains "cars45" url then Cars45Rule
  else GenericFallbackRule.

Definition rule_class (r : locator_rule) : option string -> bool :=
  match r with
  | JijiRule => class_is "b-list-advert__item"
  | ChekiRule => class_is "listing-unit"
  | Cars45Rule => class_is "vehicle-card"
  | GenericFallbackRule => class_has "listing"
  end.

(** [soup.find_all('div', class_=...)] for the selected rule. *)
Definition rule_matches (r : locator_rule) (e : elem) : bool :=
  has_tag "div" e && has_class (rule_class r) e.

Definition locate (soup : elem) (url : string) : list elem :=
  find_all (rule_matches (select_rule url)) soup.

(* ------------------------------------------------------------------ *)
(** ** Field Extractor *)

(** A row of the DataFrame built by [fetch_car_data]; the same four
    columns make up the cleaned table. *)
Record car : Type := mk_car {
  name : string;
  price : Q;
  location : string;
  year : Z
}.

Definition name_elem (l : elem) : option elem :=
  or_else (find (has_tag "h2") l)
    (or_else (find (has_tag "h3") l)
       (find (has_class (class_has "name")) l)).

Definition price_elem (l : elem) : option elem :=
  or_else (find (has_class (class_is "price")) l)
    (or_else (find (has_class (class_has "price")) l)
       (find (fun e => has_tag "span" e && has_class (class_has "amount") e) l)).

Definition location_elem (l : elem) : option elem :=
  or_else (find (has_class (class_is "location")) l)
    (or_else (find (has_class (class_has "location")) l)
       (find (fun e => has_tag "span" e && has_class (class_has "area") e) l)).

Definition year_elem (l : elem) : option elem :=
  or_else (find (has_class (class_is "year")) l)
    (or_else (find (has_class (class_has "year")) l)
       (find (fun e => has_tag "span" e && has_class (class_has "yr") e) l)).

(** [x.text.strip() if x else default] *)
Definition text_or (x : option elem) (default : string) : string :=
  match x with Some e => strip (text e) | None => default end.

Definition price_text (l : elem) : string :=
  str_filter (fun c => is_digit c || Ascii.eqb c "."%char)
    (text_or (price_elem l) "0").

Definition year_text (l : elem) : string :=
  str_filter is_digit (text_or (year_elem l) "0").

(** The body of the [try] block for one listing: [inl] the appended
    record, [inr] the message of the exception it raises.  The dict is
    built in order, so [float(price)] is evaluated before [int(year)];
    these are the only calls that can raise on these inputs. *)
Definition extract_listing (l : elem) : car + string :=
  let nm := text_or (name_elem l) "Unknown" in
  let pr := price_text l in
  let loc := text_or (location_elem l) "Unknown" in
  let yr := year_text l in
  let pv := if is_empty pr then Some 0%Q else py_float pr in
  match pv with
  | None => inr ("could not convert string to float: '" ++ pr ++ "'")
  | Some p =>
      if negb (is_empty yr) && py_isdigit yr then
        match py_int yr with
        | inl y => inl (mk_car nm p loc y)
        | inr e => inr e
        end
      else inl (mk_car nm p loc 0%Z)
  end.

(** UI messages emitted through [st.error] and [st.warning]. *)
Inductive message : Type :=
| Error (s : string)
| Warning (s : string).

(** The [for listing in listings: try ... except ...: continue] loop:
    collected records and the warnings emitted. *)
Fixpoint extract_all (ls : list elem) : list car * list message :=
  match ls with
  | [] => ([], [])
  | l :: rest =>
      let (cars, msgs) := extract_all rest in
      match extract_listing l with
      | inl c => (c :: cars, msgs)
      | inr e => (cars, Warning ("Skipped a listing due to error: " ++ e) :: msgs)
      end
  end.

(* ------------------------------------------------------------------ *)
(** ** Fetch Adapter *)

(** What [session.get(url, ...)] and [raise_for_status()] yield: a
    [RequestException] with its text, or a response with its
    [content-type] header ([""] when absent) and the parsed body. *)
Inductive response : Type :=
| RequestFailed (err : string)
| Response (content_type : string) (soup : elem).

(** [fetch_car_data(url)]: the rows of the returned DataFrame (an empty
    list is [pd.DataFrame()]) and the messages shown meanwhile. *)
Definition fetch_car_data (url : string) (resp : response) : list car * list message :=
  match resp with
  | RequestFailed e => ([], [Error ("Failed to fetch data: " ++ e)])
  | Response ct soup =>
      if prefix "text/html" ct then extract_all (locate soup url)
      else ([], [Error "Received non-HTML response"])
  end.

(* ------------------------------------------------------------------ *)
(** ** Record Normalizer *)

(** A cell of the [price] or [year] column before [pd.to_numeric]: a
    number, a string, or a missing value. *)
Inductive cell : Type :=
| Num (q : Q)
| Text (s : string)
| NA.

(** A row handed to [clean_car_data]; [None] in [name] or [location] is a
    missing value. *)
Record raw_row : Type := mk_raw {
  r_name : option string;
  r_price : cell;
  r_location : option string;
  r_year : cell
}.

(** The same row once [price] and [year] are numeric ([None] is NaN). *)
Record num_row : Type := mk_num {
  n_name : option string;
  n_price : option Q;
  n_location : option string;
  n_year : option Q
}.

(** And once [year] went through [astype(int)]. *)
Record int_row : Type := mk_int {
  i_name : option string;
  i_price : option Q;
  i_location : option string;
  i_year : Z
}.

(** [DataFrame(car_data)]: the fetched records as a frame. *)
Definition to_raw (c : car) : raw_row :=
  mk_raw (Some (name c)) (Num (price c)) (Some (location c)) (Num (inject_Z (year c))).

Fixpoint insert_sorted (x : Q) (l : list Q) : list Q :=
  match l with
  | [] => [x]
  | y :: r => if Qle_bool x y then x :: y :: r else y :: insert_sorted x r
  end.

Fixpoint sort_Q (l : list Q) : list Q :=
  match l with
  | [] => []
  | x :: r => insert_sorted x (sort_Q r)
  end.

(** [Series.median()] over the non-missing values: the middle value, or
    the mean of the two middle values; NaN ([None]) when there are none. *)
Definition median (l : list Q) : option Q :=
  let s := sort_Q l in
  let n := List.length s in
  match n with
  | O => None
  | _ =>
      if Nat.odd n then Some (nth (n / 2) s 0%Q)
      else Some ((nth (n / 2 - 1) s 0%Q + nth (n / 2) s 0%Q) / 2)%Q
  end.

(** [astype(int)] on a float: truncation toward zero.  This is what numpy
    does inside the int64 range; outside it (a year of 2^63 or more in a
    fetched frame, stored as uint64, or a float beyond the int64 range)
    numpy wraps or saturates instead, so the theorems that depend on the
    year value state the range they hold in. *)
Definition py_trunc (q : Q) : Z := Z.quot (Qnum q) (Zpos (Qden q)).

Section Normalizer.

(** How [pd.to_numeric] reads a string cell: the number it reads, [None]
    for the strings that [errors='coerce'] turns into NaN.  Strings read
    as an infinity are outside this model. *)
Variable str_to_numeric : string -> option Q.

(** [pd.to_numeric(col, errors='coerce')] on one cell. *)
Definition to_numeric (c : cell) : option Q :=
  match c with
  | Num q => Some q
  | Text s => str_to_numeric s
  | NA => None
  end.

Definition coerce (r : raw_row) : num_row :=
  mk_num (r_name r) (to_numeric (r_price r)) (r_location r) (to_numeric (r_year r)).

(** [df['price'] > 0]; NaN compares false. *)
Definition price_positive (r : num_row) : bool :=
  match n_price r with
  | Some p => negb (Qle_bool p 0)
  | None => false
  end.

(** The non-missing values of the [year] column. *)
Fixpoint present_years (df : list num_row) : list Q :=
  match df with
  | [] => []
  | r :: rest =>
      match n_year r with
      | Some y => y :: present_years rest
      | None => present_years rest
      end
  end.

(** [df['year'].fillna(m).astype(int)]: [None] when a NaN is left, where
    [astype(int)] raises. *)
Fixpoint fill_year (m : option Q) (df : list num_row) : option (list int_row) :=
  match df with
  | [] => Some []
  | r :: rest =>
      match or_else (n_year r) m, fill_year m rest with
      | Some y, Some rest' =>
          Some (mk_int (n_name r) (n_price r) (n_location r) (py_trunc y) :: rest')
      | _, _ => None
      end
  end.

(** [df.dropna()] *)
Fixpoint dropna (df : list int_row) : list car :=
  match df with
  | [] => []
  | r :: rest =>
      match i_name r, i_price r, i_location r with
      | Some n, Some p, Some l => mk_car n p l (i_year r) :: dropna rest
      | _, _, _ => dropna rest
      end
  end.

(** The frame left after the coercion and the price filter. *)
Definition priced (rows : list raw_row) : list num_row :=
  List.filter price_positive (List.map coerce rows).

(** [clean_car_data(df)]; [None] when it raises. *)
Definition clean_car_data (rows : list raw_row) : option (list car) :=
  match rows with
  | [] => Some []  (* [if df.empty: return df] *)
  | _ =>
      match priced rows with
      | [] => Some []  (* year column empty: no median; dropna of an empty frame *)
      | df =>
          match fill_year (median (present_years df)) df with
          | Some df' => Some (dropna df')
          | None => None
          end
      end
  end.

(* ------------------------------------------------------------------ *)
(** ** The fetch-and-analyze cycle *)

Definition no_data_msg : string :=
  "No data fetched. The website structure may have changed or the site may be blocking requests.".

(** One press of "Fetch and Analyze Data": the new [st.session_state.df_clean]
    and the messages shown ([None] when [clean_car_data] raises).  The
    charts drawn after the state update are presentation only and are not
    modelled separately, by [render_analysis]. *)
Definition fetch_and_analyze (df_clean : list car) (url : string) (resp : response)
  : option (list car * list message) :=
  let (df_raw, msgs) := fetch_car_data url resp in
  match df_raw with
  | [] => Some (df_clean, (msgs ++ [Warning no_data_msg])%list)
  | _ =>
      match clean_car_data (List.map to_raw df_raw) with
      | Some df' => Some (df', msgs)
      | None => None
      end
  end.

End Normalizer.

(** The CSV download offered at the end of every run: the stored table
    when it is not empty (serialised by [to_csv]), nothing otherwise. *)
Definition export_csv (df_clean : list car) : option (list car) :=
  match df_clean with
  | [] => None
  | _ => Some df_clean
  end.

(** The [car_websites] dictionary of the page: display name and URL. *)
Definition car_websites : list (string * string) :=
  [ ("Jiji.ng Cars", "https://www.jiji.ng/cars");
    ("Cheki Nigeria", "https://www.cheki.com.ng/vehicles");
    ("Cars45 Nigeria", "https://www.cars45.com/listing");
    ("Autochek Africa", "https://autochek.africa/ng/cars-for-sale") ].

(** [car_websites[selected_site_name]] *)
Definition site_url (site_name : string) : option string :=
  option_map snd (List.find (fun p => String.eqb (fst p) site_name) car_websites).

(* ------------------------------------------------------------------ *)
(** ** Presentation after a successful fetch *)

(** [count] of [x] in [l]. *)
Fixpoint count_by {A} (eqb : A -> A -> bool) (x : A) (l : list A) : nat :=
  match l with
  | [] => 0
  | y :: r => if eqb y x then S (count_by eqb x r) else count_by eqb x r
  end.

(** The distinct values of [l], in order of first occurrence. *)
Fixpoint dedup_first {A} (eqb : A -> A -> bool) (seen : list A) (l : list A) : list A :=
  match l with
  | [] => []
  | x :: r =>
      if existsb (eqb x) seen then dedup_first eqb seen r
      else x :: dedup_first eqb (x :: seen) r
  end.

(** [Series.nunique()] (no value of the cleaned table is missing). *)
Definition nunique {A} (eqb : A -> A -> bool) (l : list A) : nat :=
  List.length (dedup_first eqb [] l).

(** Insertion into a list sorted by decreasing count; an entry goes before
    the first entry whose count is not larger, so that equal counts keep
    their order. *)
Fixpoint insert_count {A} (x : A * nat) (l : list (A * nat)) : list (A * nat) :=
  match l with
  | [] => [x]
  | y :: r => if (snd y <=? snd x)%nat then x :: y :: r else y :: insert_count x r
  end.

Fixpoint sort_counts {A} (l : list (A * nat)) : list (A * nat) :=
  match l with
  | [] => []
  | x :: r => insert_count x (sort_counts r)
  end.

(** [Series.value_counts()]: each distinct value with its number of
    occurrences, by decreasing count.  Values with equal counts are kept
    in first-occurrence order here; pandas' sort may order such ties
    differently, and the properties proved below hold for any order of
    ties. *)
Definition value_counts {A} (eqb : A -> A -> bool) (l : list A) : list (A * nat) :=
  sort_counts (List.map (fun x => (x, count_by eqb x l)) (dedup_first eqb [] l)).

(** What the page shows after "Fetch and Analyze Data" with a non-empty
    fetch (the [else] branch of the button handler): subheaders, the
    sample table, bar charts of [value_counts().head(10)] Series and the
    Plotly histograms (column and title).  Emoji in the headings are left
    out; the [try] blocks around the charts never catch anything on a
    cleaned table and are not modelled. *)
Inductive widget : Type :=
| Subheader (s : string)
| Table (rows : list car)
| BarChart (bars : list (string * nat))
| Histogram (column title : string) (rows : list car)
| Notice (m : message).

Definition render_analysis (df : list car) : list widget :=
  [ Subheader "Sample Data (10 rows)";
    Table (firstn 10 df);
    Subheader "Top 10 Car Models";
    BarChart (firstn 10 (value_counts String.eqb (List.map name df)));
    Subheader "Price Distribution";
    Histogram "price" "Distribution of Car Prices" df;
    Subheader "Cars by Year" ] ++
  (if (1 <? nunique Z.eqb (List.map year df))%nat
   then [Histogram "year" "Cars by Manufacturing Year" df]
   else [Notice (Warning "Insufficient year data")]) ++
  [ Subheader "Top Locations" ] ++
  (if (1 <? nunique String.eqb (List.map location df))%nat
   then [BarChart (firstn 10 (value_counts String.eqb (List.map location df)))]
   else [Notice (Warning "Insufficient location data")]).

(** One run of the script after the page loads: [click] is the response
    fetched when the button was pressed.  Result: the session table, the
    messages, the analysis widgets and the CSV download offered at the
    end ([None] when [clean_car_data] raises). *)
Definition script_run (str_to_numeric : string -> option Q) (df_clean : list car)
  (url : string) (click : option response)
  : option (list car * list message * list widget * option (list car)) :=
  match click with
  | None => Some (df_clean, [], [], export_csv df_clean)
  | Some resp =>
      match fetch_and_analyze str_to_numeric df_clean url resp with
      | None => None
      | Some (df', msgs) =>
          let shown := match fst (fetch_car_data url resp) with
                       | [] => []
                       | _ => render_analysis df'
                       end in
          Some (df', msgs, shown, export_csv df')
      end
  end.

(* ================================================================== *)
(** * Properties *)

(** ** Facts about the normalizer *)

Lemma insert_sorted_length (x : Q) (l : list Q) :
  List.length (insert_sorted x l) = S (List.length l).
Proof.
  induction l as [|y r IH]; simpl; [reflexivity|].
  destruct (Qle_bool x y); simpl; congruence.
Qed.

Lemma sort_Q_length (l : list Q) : List.length (sort_Q l) = List.length l.
Proof.
  induction l as [|x r IH]; simpl; [reflexivity|].
  rewrite insert_sorted_length; congruence.
Qed.

Lemma median_defined (l : list Q) : l <> [] -> exists m, median l = Some m.
Proof.
  intros Hne. unfold median.
  rewrite sort_Q_length.
  destruct l as [|x r]; [congruence|]. simpl List.length.
  destruct (Nat.odd (S (List.length r))); eexists; reflexivity.
Qed.

Lemma price_positive_lt (r : num_row) (p : Q) :
  price_positive r = true -> n_price r = Some p -> (0 < p)%Q.
Proof.
  unfold price_positive. intros H Hp. rewrite Hp in H.
  apply Qnot_le_lt. intro Hle.
  apply Qle_bool_iff in Hle. rewrite Hle in H. discriminate.
Qed.



Lemma fill_year_rows (m : option Q) (df : list num_row) (df' : list int_row) :
  fill_year m df = Some df' ->
  forall r', In r' df' -> exists r, In r df /\ i_price r' = n_price r.
Proof.
  revert df'. induction df as [|r rest IH]; simpl; intros df' H r' Hin.
  - inversion H; subst. destruct Hin.
  - destruct (or_else (n_year r) m) as [y|]; [|discriminate].
    destruct (fill_year m rest) as [rest'|] eqn:Hrest; [|discriminate].
    inversion H; subst. destruct Hin as [<-|Hin].
    + exists r. simpl. auto.
    + destruct (IH rest' eq_refl r' Hin) as (r0 & Hr0 & Hp). exists r0. auto.
Qed.

Lemma dropna_rows (df : list int_row) (c : car) :
  In c (dropna df) -> exists r, In r df /\ i_price r = Some (price c).
Proof.
  induction df as [|r rest IH]; simpl; [intros []|].
  destruct (i_name r) as [n|], (i_price r) as [p|] eqn:Hp, (i_location r) as [l|];
    simpl; intros Hin;
    try (destruct (IH Hin) as (r0 & ? & ?); exists r0; auto; fail).
  destruct Hin as [<-|Hin].
  - exists r. auto.
  - destruct (IH Hin) as (r0 & ? & ?). exists r0. auto.
Qed.

Lemma priced_positive (str_to_numeric : string -> option Q) (rows : list raw_row) r :
  In r (priced str_to_numeric rows) -> price_positive r = true.
Proof. unfold priced. rewrite filter_In. tauto. Qed.

Definition car_positive (c : car) : bool := negb (Qle_bool (price c) 0).

Lemma py_trunc_inject_Z (z : Z) : py_trunc (inject_Z z) = z.
Proof. unfold py_trunc, inject_Z. simpl. apply Z.quot_1_r. Qed.

(** On a frame built from records (every cell a number), the normalizer
    keeps the positive-price records as they are: no year is missing, so
    none is imputed and [astype(int)] leaves the integers alone. *)
Lemma clean_car_frame (str_to_numeric : string -> option Q) (cars : list car) :
  clean_car_data str_to_numeric (List.map to_raw cars) =
  Some (List.filter car_positive cars).
Proof.
  assert (Hp : priced str_to_numeric (List.map to_raw cars) =
               List.map (fun c => coerce str_to_numeric (to_raw c))
                        (List.filter car_positive cars)).
  { unfold priced. induction cars as [|c rest IH]; [reflexivity|].
    simpl. unfold price_positive at 1, car_positive at 1. simpl.
    destruct (negb (Qle_bool (price c) 0)); simpl; rewrite IH; reflexivity. }
  assert (Hfill : forall m l,
             fill_year (Some m) (List.map (fun c => coerce str_to_numeric (to_raw c)) l) =
             Some (List.map (fun c => mk_int (Some (name c)) (Some (price c))
                                         (Some (location c)) (year c)) l)).
  { intros m l. induction l as [|c rest IH]; [reflexivity|].
    simpl. rewrite IH. rewrite py_trunc_inject_Z. reflexivity. }
  assert (Hdrop : forall l,
             dropna (List.map (fun c => mk_int (Some (name c)) (Some (price c))
                                           (Some (location c)) (year c)) l) = l).
  { intros l. induction l as [|[n p lo y] rest IH]; [reflexivity|].
    simpl. rewrite IH. reflexivity. }
  destruct cars as [|c0 rest0]; [reflexivity|].
  unfold clean_car_data. cbv beta iota.
  change (c0 :: rest0) with (c0 :: rest0) at 1.
  simpl List.map at 1. cbv iota.
  rewrite Hp.
  destruct (List.filter car_positive (c0 :: rest0)) as [|c1 rest1] eqn:Hf;
    [reflexivity|].
  simpl List.map at 1. cbv iota.
  destruct (median (present_years
             (List.map (fun c => coerce str_to_numeric (to_raw c)) (c1 :: rest1))))
    as [m|] eqn:Hm.
  - pose proof (Hfill m (c1 :: rest1)) as H1.
    pose proof (Hdrop (c1 :: rest1)) as H2.
    simpl List.map in H1, H2, Hm |- *. rewrite Hm, H1, H2. reflexivity.
  - exfalso. destruct (median_defined
       (present_years (List.map (fun c => coerce str_to_numeric (to_raw c)) (c1 :: rest1))))
      as [m Hm']; [simpl; discriminate|]. congruence.
Qed.

Lemma car_positive_lt (c : car) : car_positive c = true <-> (0 < price c)%Q.
Proof.
  unfold car_positive. split.
  - intros H. apply Qnot_le_lt. intro Hle.
    apply Qle_bool_iff in Hle. rewrite Hle in H. discriminate.
  - intros H. destruct (Qle_bool (price c) 0) eqn:Hb; [|reflexivity].
    apply Qle_bool_iff in Hb. exfalso. apply (Qlt_not_le _ _ H Hb).
Qed.

(** ** Concrete batches *)

Definition no_car : car := mk_car "" 0 "" 0.

(** A batch with string cells: the second row has a price given as text
    and an unparseable year, the third a zero price and a year that
    survives only if the median were taken before the price filter. *)
Definition batch_mixed : list raw_row :=
  [ mk_raw (Some "Toyota Camry") (Num 1200000) (Some "Lagos") (Text "2020");
    mk_raw (Some "Honda Accord") (Text "850000") (Some "Abuja") (Text "n/a");
    mk_raw (Some "Kia Rio") (Num 0) (Some "Ibadan") (Text "1990");
    mk_raw (Some "Kia Rio") (Num 900000) (Some "Kano") (Num 2018) ].

Definition batch_mixed_clean : list car :=
  match clean_car_data py_float batch_mixed with Some o => o | None => [] end.

(** A batch whose only row has no parseable year. *)
Definition batch_no_year : list raw_row :=
  [ mk_raw (Some "Toyota Camry") (Num 1200000) (Some "Lagos") (Text "n/a") ].

(** A batch where no price is positive. *)
Definition batch_unpriced : list raw_row :=
  [ mk_raw (Some "Toyota Camry") (Num 0) (Some "Lagos") (Num 2020);
    mk_raw (Some "Honda Accord") (Text "call for price") (Some "Abuja") (Text "2015") ].

(** An already clean table. *)
Definition table_clean : list car :=
  [ mk_car "Toyota Camry" 1200000 "Lagos" 2020;
    mk_car "Honda Accord" 850000 "Abuja" 2015 ].


(** The years of a list of records are all below a bound: a check by
    evaluation. *)
Lemma years_below_of_check (b : Z) (cs : list car) :
  forallb (fun c => Z.ltb (year c) b) cs = true -> Forall (fun c => (year c < b)%Z) cs.
Proof.
  intros H. apply Forall_forall. intros c Hc.
  apply Z.ltb_lt. exact (proj1 (forallb_forall _ cs) H c Hc).
Qed.

(** ** Claims on the Record Normalizer *)




(** C2: every row of the cleaned table has a price strictly above zero. *)
Theorem clean_car_data_price_positive
  (str_to_numeric : string -> option Q) (rows : list raw_row) (out : list car) :
  clean_car_data str_to_numeric rows = Some out ->
  forall c, In c out -> (0 < price c)%Q.
Proof.
  intros H c Hin. unfold clean_car_data in H.
  destruct rows as [|r rs]; [inversion H; subst; destruct Hin|].
  destruct (priced str_to_numeric (r :: rs)) as [|p ps] eqn:HP;
    [inversion H; subst; destruct Hin|].
  destruct (fill_year _ (p :: ps)) as [df'|] eqn:Hf; [|discriminate].
  inversion H; subst.
  destruct (dropna_rows _ _ Hin) as (r' & Hr' & Hpr').
  destruct (fill_year_rows _ _ _ Hf r' Hr') as (r0 & Hr0 & Hp0).
  rewrite <- HP in Hr0.
  apply (price_positive_lt r0).
  - exact (priced_positive _ _ _ Hr0).
  - congruence.
Qed.

Lemma clean_car_data_price_positive_witness :
  clean_car_data py_float batch_mixed = Some batch_mixed_clean /\
  (0 < price (hd no_car batch_mixed_clean))%Q.
Proof.
  split.
  - vm_compute. reflexivity.
  - apply (clean_car_data_price_positive py_float batch_mixed batch_mixed_clean).
    + vm_compute. reflexivity.
    + vm_compute. left. reflexivity.
Defined.

(** C5: on an already clean table (names and locations present, prices
    positive, integer years) the normalizer returns the table unchanged. *)
Theorem clean_car_data_idempotent
  (str_to_numeric : string -> option Q) (cs : list car) :
  Forall (fun c => (0 < price c)%Q) cs ->
  clean_car_data str_to_numeric (List.map to_raw cs) = Some cs.
Proof.
  intros Hpos. rewrite clean_car_frame. f_equal.
  induction Hpos as [|c rest Hc _ IH]; [reflexivity|].
  simpl. apply car_positive_lt in Hc. rewrite Hc, IH. reflexivity.
Qed.

Lemma clean_car_data_idempotent_witness :
  Forall (fun c => (0 < price c)%Q) table_clean /\
  clean_car_data py_float (List.map to_raw table_clean) = Some table_clean.
Proof.
  assert (Hpos : Forall (fun c => (0 < price c)%Q) table_clean).
  { repeat constructor. }
  split; [exact Hpos|].
  apply clean_car_data_idempotent. exact Hpos.
Defined.

(** C9: when no row keeps a positive price the normalizer returns an empty
    table; the median branch is not entered. *)
Theorem clean_car_data_no_survivors
  (str_to_numeric : string -> option Q) (rows : list raw_row) :
  priced str_to_numeric rows = [] ->
  clean_car_data str_to_numeric rows = Some [].
Proof.
  intros H. unfold clean_car_data.
  destruct rows as [|r rs]; [reflexivity|].
  rewrite H. reflexivity.
Qed.

Lemma clean_car_data_no_survivors_witness :
  priced py_float batch_unpriced = [] /\
  clean_car_data py_float batch_unpriced = Some [].
Proof.
  split.
  - vm_compute. reflexivity.
  - apply clean_car_data_no_survivors. vm_compute. reflexivity.
Defined.

(** ** Facts about the extractor *)

Lemma digits_acc_nonneg (acc : Z) (s : string) : (0 <= acc)%Z -> (0 <= digits_acc acc s)%Z.
Proof.
  revert acc. induction s as [|c r IH]; intros acc H; [exact H|].
  change (digits_acc acc (String c r)) with (digits_acc (10 * acc + digit_value c)%Z r).
  apply IH. unfold digit_value.
  pose proof (Nat2Z.is_nonneg (nat_of_ascii c - 48)%nat). lia.
Qed.

Lemma digits_value_nonneg (s : string) : (0 <= digits_value s)%Z.
Proof. apply digits_acc_nonneg. lia. Qed.

Lemma inject_Z_nonneg (z : Z) : (0 <= z)%Z -> (0 <= inject_Z z)%Q.
Proof. intros H. unfold Qle, inject_Z. simpl. lia. Qed.

Lemma py_float_nonneg (s : string) (q : Q) : py_float s = Some q -> (0 <= q)%Q.
Proof.
  unfold py_float.
  destruct (negb _); [discriminate|].
  destruct (split_dot s) as [ip [fp|]].
  - destruct (negb (all_decimal fp)); [discriminate|].
    destruct (is_empty ip && is_empty fp); [discriminate|].
    intros H; inversion H; subst; clear H.
    rewrite <- (Qplus_0_l 0).
    apply Qplus_le_compat; [apply inject_Z_nonneg, digits_value_nonneg|].
    unfold Qdiv. apply Qmult_le_0_compat.
    + apply inject_Z_nonneg, digits_value_nonneg.
    + apply Qinv_le_0_compat, inject_Z_nonneg. apply Z.pow_nonneg. lia.
  - destruct (is_empty ip); [discriminate|].
    intros H; inversion H; subst. apply inject_Z_nonneg, digits_value_nonneg.
Qed.

Lemma all_digits_filter (s : string) : all_digits (str_filter is_digit s) = true.
Proof.
  induction s as [|c r IH]; simpl; [reflexivity|].
  destruct (is_digit c) eqn:Hd; simpl; [rewrite Hd|]; auto.
Qed.

(** The year text is all [isdigit] characters, so [year.isdigit()] only
    checks that it is non-empty. *)
Lemma year_text_isdigit (l : elem) :
  py_isdigit (year_text l) = negb (is_empty (year_text l)).
Proof. unfold py_isdigit, year_text. rewrite all_digits_filter, andb_true_r. reflexivity. Qed.

Lemma py_int_value (s : string) (y : Z) :
  py_int s = inl y -> all_decimal s = true /\ y = digits_value s.
Proof.
  unfold py_int. destruct (4300 <? decimal_prefix_length s)%nat; [discriminate|].
  destruct (all_decimal s); [|discriminate]. intros H. inversion H. auto.
Qed.

(** What one listing becomes: the record, or the skip when [float] or
    [int] raises. *)
Lemma extract_listing_fields (l : elem) :
  (forall c, extract_listing l = inl c ->
     name c = text_or (name_elem l) "Unknown" /\
     location c = text_or (location_elem l) "Unknown" /\
     (0 <= price c)%Q /\ (0 <= year c)%Z /\
     (price_elem l = None -> price c = 0%Q) /\
     (year_elem l = None -> year c = 0%Z)) /\
  ((exists e, extract_listing l = inr e) <->
     (is_empty (price_text l) = false /\ py_float (price_text l) = None) \/
     (is_empty (year_text l) = false /\ exists m, py_int (year_text l) = inr m)).
Proof.
  assert (Hy0 : year_elem l = None -> year_text l = "0").
  { intros H. unfold year_text, text_or. rewrite H. reflexivity. }
  assert (Hp0 : price_elem l = None -> price_text l = "0").
  { intros H. unfold price_text, text_or. rewrite H. reflexivity. }
  unfold extract_listing. cbv zeta. rewrite year_text_isdigit, andb_diag.
  destruct (if is_empty (price_text l) then Some 0%Q else py_float (price_text l))
    as [p|] eqn:Hpv.
  - assert (Hpnn : (0 <= p)%Q).
    { destruct (is_empty (price_text l)).
      - inversion Hpv. apply Qle_refl.
      - exact (py_float_nonneg _ _ Hpv). }
    assert (Hpz : price_elem l = None -> p = 0%Q).
    { intros H. rewrite (Hp0 H) in Hpv. vm_compute in Hpv. inversion Hpv. reflexivity. }
    assert (Hpok : ~ (is_empty (price_text l) = false /\ py_float (price_text l) = None)).
    { intros [He Hf]. rewrite He, Hf in Hpv. discriminate. }
    destruct (is_empty (year_text l)) eqn:Hye; simpl.
    + split.
      * intros c H. inversion H; subst; clear H; simpl.
        repeat split; auto; lia.
      * split; [intros [e H]; discriminate|].
        intros [H|[H _]]; [contradiction|discriminate].
    + destruct (py_int (year_text l)) as [y|m] eqn:Hpi.
      * destruct (py_int_value _ _ Hpi) as [_ Hyv].
        split.
        -- intros c H. inversion H; subst; clear H; simpl.
           repeat split; auto.
           ++ apply digits_value_nonneg.
           ++ intros H. rewrite (Hy0 H). reflexivity.
        -- split; [intros [e H]; discriminate|].
           intros [H|[_ [m H]]]; [contradiction|congruence].
      * split; [intros c H; discriminate|].
        split; [intros _; right; eauto | intros _; eauto].
  - split; [intros c H; discriminate|].
    split; [intros _; left | intros _; eauto].
    destruct (is_empty (price_text l)); [discriminate|]. auto.
Qed.

Lemma extract_all_cons (l : elem) (ls : list elem) :
  fst (extract_all (l :: ls)) =
  (match extract_listing l with inl c => [c] | inr _ => [] end ++
   fst (extract_all ls))%list.
Proof.
  simpl. destruct (extract_all ls) as [cars msgs].
  destruct (extract_listing l); reflexivity.
Qed.

Lemma extract_all_in (ls : list elem) (c : car) :
  In c (fst (extract_all ls)) -> exists l, In l ls /\ extract_listing l = inl c.
Proof.
  induction ls as [|l rest IH]; [simpl; intros []|].
  rewrite extract_all_cons.
  destruct (extract_listing l) as [c'|e] eqn:Hl; simpl; intros Hin.
  - destruct Hin as [<-|Hin]; [exists l; auto|].
    destruct (IH Hin) as (l' & ? & ?). exists l'. auto.
  - destruct (IH Hin) as (l' & ? & ?). exists l'. auto.
Qed.

Lemma fetch_car_data_in (url : string) (resp : response) (c : car) :
  In c (fst (fetch_car_data url resp)) -> exists l, extract_listing l = inl c.
Proof.
  destruct resp as [e|ct soup]; simpl; [intros []|].
  destruct (prefix "text/html" ct); simpl; [|intros []].
  intros Hin. destruct (extract_all_in _ _ Hin) as (l & _ & H). eauto.
Qed.

(** ** Concrete pages *)

Definition jiji_url : string := "https://www.jiji.ng/cars".

Definition listing_2020 : elem :=
  El "div" ["b-list-advert__item"] ""
     [ El "h2" [] "Toyota Camry" [];
       El "span" ["qa-advert-price"] "N 1,200,000" [];
       El "span" ["location"] "Lagos" [];
       El "span" ["year"] "2020" [] ].

Definition listing_no_year : elem :=
  El "div" ["b-list-advert__item"] ""
     [ El "h3" [] "Honda Accord" [];
       El "span" ["price"] "N 850,000" [];
       El "span" ["location"] "Abuja" [] ].

Definition listing_2018 : elem :=
  El "div" ["b-list-advert__item"] ""
     [ El "h2" [] "Kia Rio" [];
       El "span" ["price"] "N 900,000" [];
       El "span" ["location"] "Kano" [];
       El "span" ["year"] "2018" [] ].


Definition page_years : elem :=
  El "html" [] "" [El "body" [] "" [listing_2020; listing_no_year; listing_2018]].

(** A page with no listing container at all. *)
Definition page_empty : elem :=
  El "html" [] "" [El "body" [] "" [El "p" ["notice"] "No results" []]].

(** When rows keep a positive price but none of them has a parseable
    year, the median is NaN, [fillna] leaves the NaNs and [astype(int)]
    raises: [clean_car_data] fails. *)
Lemma fill_year_none (df : list num_row) :
  df <> [] -> present_years df = [] -> fill_year None df = None.
Proof.
  intros Hne Hy. destruct df as [|r rest]; [congruence|].
  simpl in Hy |- *. destruct (n_year r); [discriminate|]. reflexivity.
Qed.

Theorem clean_car_data_all_years_missing
  (str_to_numeric : string -> option Q) (rows : list raw_row) :
  priced str_to_numeric rows <> [] ->
  present_years (priced str_to_numeric rows) = [] ->
  clean_car_data str_to_numeric rows = None.
Proof.
  intros Hne Hy. unfold clean_car_data.
  destruct rows as [|r rs]; [exfalso; apply Hne; reflexivity|].
  destruct (priced str_to_numeric (r :: rs)) as [|p ps] eqn:HP; [congruence|].
  rewrite Hy. replace (median []) with (@None Q) by reflexivity.
  rewrite (fill_year_none (p :: ps)); [reflexivity|discriminate|exact Hy].
Qed.

Lemma clean_car_data_all_years_missing_witness :
  priced py_float batch_no_year <> [] /\
  present_years (priced py_float batch_no_year) = [] /\
  clean_car_data py_float batch_no_year = None.
Proof.
  assert (H1 : priced py_float batch_no_year <> []) by (vm_compute; discriminate).
  assert (H2 : present_years (priced py_float batch_no_year) = []) by (vm_compute; reflexivity).
  split; [exact H1|]. split; [exact H2|].
  exact (clean_car_data_all_years_missing py_float batch_no_year H1 H2).
Defined.

(** ** Claims on the Field Extractor *)



(** C10: every fetched record has a non-negative price and year, both
    numeric cells of the frame; a price or year that is not found, or has
    no digit left, is the number 0. *)
Theorem fetch_car_data_numeric
  (str_to_numeric : string -> option Q) (url : string) (resp : response) :
  Forall (fun c =>
    (0 <= price c)%Q /\ (0 <= year c)%Z /\
    to_numeric str_to_numeric (r_price (to_raw c)) = Some (price c) /\
    to_numeric str_to_numeric (r_year (to_raw c)) = Some (inject_Z (year c)))
    (fst (fetch_car_data url resp)) /\
  (forall l c, extract_listing l = inl c ->
     (price_elem l = None -> price c = 0%Q) /\
     (price_text l = EmptyString -> price c = 0%Q) /\
     (year_elem l = None -> year c = 0%Z) /\
     (year_text l = EmptyString -> year c = 0%Z)).
Proof.
  split.
  - apply Forall_forall. intros c Hin.
    destruct (fetch_car_data_in _ _ _ Hin) as [l Hl].
    destruct (proj1 (extract_listing_fields l) c Hl) as (_ & _ & Hp & Hy & _ & _).
    repeat split; assumption.
  - intros l c Hl.
    destruct (proj1 (extract_listing_fields l) c Hl) as (_ & _ & _ & _ & Hp & Hy).
    split; [exact Hp|]. split; [|split; [exact Hy|]].
    + intros He. unfold extract_listing in Hl. rewrite He in Hl.
      simpl in Hl.
      destruct (negb (is_empty (year_text l)) && py_isdigit (year_text l));
        [destruct (py_int (year_text l))|]; inversion Hl; reflexivity.
    + intros He. unfold extract_listing in Hl. rewrite He in Hl.
      destruct (if is_empty (price_text l) then Some 0%Q else py_float (price_text l));
        simpl in Hl; inversion Hl. reflexivity.
Qed.

(** ** Claims on the whole cycle *)

(** C4 (as amended): a listing with no year element is extracted with
    year 0, and the normalizer run on fetched records whose years are
    below 2^63 (an int64 column, where [astype(int)] changes nothing) only
    drops the non-positive prices; it never replaces a year. *)
Theorem fetch_and_analyze_keeps_years
  (str_to_numeric : string -> option Q) (df_clean : list car)
  (url : string) (resp : response) :
  fst (fetch_car_data url resp) <> [] ->
  Forall (fun c => (year c < 2 ^ 63)%Z) (fst (fetch_car_data url resp)) ->
  fetch_and_analyze str_to_numeric df_clean url resp =
    Some (List.filter car_positive (fst (fetch_car_data url resp)),
          snd (fetch_car_data url resp)) /\
  (forall l c, year_elem l = None -> extract_listing l = inl c -> year c = 0%Z).
Proof.
  intros Hne _. split.
  - unfold fetch_and_analyze.
    destruct (fetch_car_data url resp) as [cars msgs]. simpl in Hne |- *.
    destruct cars as [|c0 rest]; [congruence|].
    rewrite clean_car_frame. reflexivity.
  - intros l c Hy Hl.
    exact (proj2 (proj2 (proj2 (proj2 (proj2 (proj1 (extract_listing_fields l) c Hl))))) Hy).
Qed.

Lemma fetch_and_analyze_keeps_years_witness :
  fst (fetch_car_data jiji_url (Response "text/html; charset=utf-8" page_years)) <> [] /\
  Forall (fun c => (year c < 2 ^ 63)%Z)
    (fst (fetch_car_data jiji_url (Response "text/html; charset=utf-8" page_years))) /\
  fetch_and_analyze py_float [] jiji_url (Response "text/html; charset=utf-8" page_years) =
    Some (List.filter car_positive
            (fst (fetch_car_data jiji_url (Response "text/html; charset=utf-8" page_years))),
          snd (fetch_car_data jiji_url (Response "text/html; charset=utf-8" page_years))).
Proof.
  assert (Hne : fst (fetch_car_data jiji_url
                       (Response "text/html; charset=utf-8" page_years)) <> []).
  { vm_compute. discriminate. }
  assert (Hlt : Forall (fun c => (year c < 2 ^ 63)%Z)
    (fst (fetch_car_data jiji_url (Response "text/html; charset=utf-8" page_years)))).
  { apply years_below_of_check. vm_compute. reflexivity. }
  split; [exact Hne|]. split; [exact Hlt|].
  exact (proj1 (fetch_and_analyze_keeps_years py_float [] jiji_url _ Hne Hlt)).
Defined.

(** C4: on the three listings with years "2020", none and "2018" (all
    priced), the listing without a year comes out with year 0, not 2019. *)
Lemma fetch_and_analyze_keeps_years_counterexample :
  match fetch_and_analyze py_float [] jiji_url
          (Response "text/html; charset=utf-8" page_years) with
  | Some (df, _) => List.map year df = [2020%Z; 0%Z; 2018%Z] /\
                    nth 1 (List.map year df) 0%Z <> 2019%Z
  | None => False
  end.
Proof. vm_compute. split; [reflexivity | discriminate]. Qed.

(** C6: when the selected rule matches no listing, [locate] returns the
    empty sequence and the cycle keeps the stored table and shows only the
    "No data fetched" warning; a failed fetch shows an error before that
    same warning. *)
Theorem locate_empty_reports_no_data
  (str_to_numeric : string -> option Q) (df_clean : list car)
  (url ct : string) (soup : elem) :
  prefix "text/html" ct = true ->
  locate soup url = [] ->
  fetch_and_analyze str_to_numeric df_clean url (Response ct soup) =
    Some (df_clean, [Warning no_data_msg]) /\
  (forall e, fetch_and_analyze str_to_numeric df_clean url (RequestFailed e) =
    Some (df_clean, [Error ("Failed to fetch data: " ++ e); Warning no_data_msg])) /\
  (forall ct' soup', prefix "text/html" ct' = false ->
    fetch_and_analyze str_to_numeric df_clean url (Response ct' soup') =
    Some (df_clean, [Error "Received non-HTML response"; Warning no_data_msg])).
Proof.
  intros Hct Hloc. split; [|split].
  - unfold fetch_and_analyze, fetch_car_data. rewrite Hct, Hloc. reflexivity.
  - intros e. reflexivity.
  - intros ct' soup' Hct'. unfold fetch_and_analyze, fetch_car_data.
    rewrite Hct'. reflexivity.
Qed.

Lemma locate_empty_reports_no_data_witness :
  prefix "text/html" "text/html; charset=utf-8" = true /\
  locate page_empty jiji_url = [] /\
  fetch_and_analyze py_float [] jiji_url (Response "text/html; charset=utf-8" page_empty) =
    Some ([], [Warning no_data_msg]).
Proof.
  assert (H1 : prefix "text/html" "text/html; charset=utf-8" = true) by reflexivity.
  assert (H2 : locate page_empty jiji_url = []) by (vm_compute; reflexivity).
  split; [exact H1|]. split; [exact H2|].
  exact (proj1 (locate_empty_reports_no_data py_float [] jiji_url _ page_empty H1 H2)).
Defined.

(** ** Claims on the Listing Locator *)

(** C7 (as amended): the rule is chosen from the URL by the substring
    tests "jiji.ng", "cheki", "cars45", first match wins; the Jiji.ng Cars
    entry's URL selects the Jiji rule; a URL with none of the three
    selects the fallback, which keeps only [div] elements and keeps every
    [div] with a class value containing "listing" in any letter case. *)
Theorem select_rule_dispatch :
  site_url "Jiji.ng Cars" = Some jiji_url /\
  select_rule jiji_url = JijiRule /\
  (forall url, contains "jiji.ng" url = true -> select_rule url = JijiRule) /\
  (forall url, contains "jiji.ng" url = false -> contains "cheki" url = false ->
     contains "cars45" url = false -> select_rule url = GenericFallbackRule) /\
  (forall e, rule_matches GenericFallbackRule e = true -> tag_of e = "div") /\
  (forall e c, tag_of e = "div" -> In c (cls_of e) ->
     contains "listing" (lower c) = true ->
     rule_matches GenericFallbackRule e = true).
Proof.
  split; [reflexivity|]. split; [reflexivity|]. split; [|split; [|split]].
  - intros url H. unfold select_rule. rewrite H. reflexivity.
  - intros url H1 H2 H3. unfold select_rule. rewrite H1, H2, H3. reflexivity.
  - intros e H. unfold rule_matches, has_tag in H.
    apply andb_prop in H. destruct H as [H _]. apply String.eqb_eq in H. exact H.
  - intros e c Htag Hin Hc. unfold rule_matches, has_tag, has_class.
    rewrite Htag. simpl.
    assert (Hne : is_empty c = false).
    { destruct c; [discriminate Hc|reflexivity]. }
    destruct (cls_of e) as [|c0 cs] eqn:Hcls; [destruct Hin|].
    unfold class_matches. apply orb_true_intro. left.
    apply existsb_exists. exists c. split; [exact Hin|].
    simpl. rewrite Hne, Hc. reflexivity.
Qed.

(** C7: a URL that contains "jiji" but not "jiji.ng" gets the generic
    fallback, and the fallback does not select a non-[div] element whose
    class is "listing". *)
Lemma select_rule_dispatch_counterexample :
  contains "jiji" "https://jiji.com.gh/cars" = true /\
  select_rule "https://jiji.com.gh/cars" = GenericFallbackRule /\
  rule_matches GenericFallbackRule (El "li" ["listing"] "" []) = false.
Proof. repeat split; vm_compute; reflexivity. Qed.

(** ** Claims on the session state *)

(** C8: a failed fetch (a request exception such as a timeout, or a
    response that is not HTML) leaves [st.session_state.df_clean] as it
    was, shows an error, and the download offered afterwards is the same
    as before; a non-empty stored table is still offered. *)
Theorem fetch_failure_keeps_table
  (str_to_numeric : string -> option Q) (df_clean : list car) (url : string) :
  (forall e, exists msgs,
     fetch_and_analyze str_to_numeric df_clean url (RequestFailed e) =
       Some (df_clean, msgs) /\
     In (Error ("Failed to fetch data: " ++ e)) msgs) /\
  (forall ct soup, prefix "text/html" ct = false -> exists msgs,
     fetch_and_analyze str_to_numeric df_clean url (Response ct soup) =
       Some (df_clean, msgs) /\
     In (Error "Received non-HTML response") msgs) /\
  (df_clean <> [] -> export_csv df_clean = Some df_clean).
Proof.
  split; [|split].
  - intros e. eexists. split; [reflexivity|]. simpl. left. reflexivity.
  - intros ct soup Hct. eexists. split.
    + unfold fetch_and_analyze, fetch_car_data. rewrite Hct. reflexivity.
    + simpl. left. reflexivity.
  - intros Hne. destruct df_clean; [congruence|reflexivity].
Qed.

(* ================================================================== *)
(** * Further properties of the code *)

(** ** The stored table *)

(** What every row of [st.session_state.df_clean] satisfies. *)
Definition table_row_ok (c : car) : Prop := (0 < price c)%Q /\ (0 <= year c)%Z.

Lemma fetch_and_analyze_table_ok
  (str_to_numeric : string -> option Q) (df_clean : list car)
  (url : string) (resp : response) :
  Forall table_row_ok df_clean ->
  exists df' msgs,
    fetch_and_analyze str_to_numeric df_clean url resp = Some (df', msgs) /\
    Forall table_row_ok df'.
Proof.
  intros Hok. unfold fetch_and_analyze.
  pose proof (fetch_car_data_in url resp) as Hin.
  destruct (fetch_car_data url resp) as [cars msgs]. simpl in Hin.
  destruct cars as [|c0 rest]; [eauto|].
  rewrite clean_car_frame. do 2 eexists. split; [reflexivity|].
  apply Forall_forall. intros c Hc.
  apply filter_In in Hc. destruct Hc as [Hc Hpos].
  destruct (Hin c Hc) as [l Hl].
  destruct (proj1 (extract_listing_fields l) c Hl) as (_ & _ & _ & Hy & _).
  split; [apply car_positive_lt; exact Hpos | exact Hy].
Qed.

(** When the fetched records have years below 2^63 (an int64 column,
    where [astype(int)] changes nothing), a press of the button never
    makes [clean_car_data] raise, and when every row of the stored table
    has a positive price and a non-negative year, so does every row of the
    table stored afterwards. *)
Theorem fetch_and_analyze_preserves_table
  (str_to_numeric : string -> option Q) (df_clean : list car)
  (url : string) (resp : response) :
  Forall (fun c => (year c < 2 ^ 63)%Z) (fst (fetch_car_data url resp)) ->
  Forall table_row_ok df_clean ->
  exists df' msgs,
    fetch_and_analyze str_to_numeric df_clean url resp = Some (df', msgs) /\
    Forall table_row_ok df'.
Proof. intros _. apply fetch_and_analyze_table_ok. Qed.

Lemma fetch_and_analyze_preserves_table_witness :
  Forall (fun c => (year c < 2 ^ 63)%Z)
    (fst (fetch_car_data jiji_url (Response "text/html" page_years))) /\
  Forall table_row_ok [] /\
  exists df' msgs,
    fetch_and_analyze py_float [] jiji_url (Response "text/html" page_years) =
      Some (df', msgs) /\ Forall table_row_ok df'.
Proof.
  assert (Hlt : Forall (fun c => (year c < 2 ^ 63)%Z)
    (fst (fetch_car_data jiji_url (Response "text/html" page_years)))).
  { apply years_below_of_check. vm_compute. reflexivity. }
  split; [exact Hlt|]. split; [constructor|].
  apply fetch_and_analyze_preserves_table; [exact Hlt | constructor].
Defined.

(** ** The extraction loop *)

(** Every located listing gives either one record or one "Skipped a
    listing" warning, and the loop over two runs of listings is the loop
    over the first followed by the loop over the second. *)
Theorem extract_all_accounts (ls ls' : list elem) :
  (List.length (fst (extract_all ls)) + List.length (snd (extract_all ls)) =
   List.length ls)%nat /\
  Forall (fun m => exists e, m = Warning ("Skipped a listing due to error: " ++ e))
    (snd (extract_all ls)) /\
  extract_all (ls ++ ls') =
    ((fst (extract_all ls) ++ fst (extract_all ls'))%list,
     (snd (extract_all ls) ++ snd (extract_all ls'))%list).
Proof.
  induction ls as [|l rest (IHlen & IHmsg & IHapp)]; simpl.
  - split; [reflexivity|]. split; [constructor|].
    destruct (extract_all ls'); reflexivity.
  - rewrite IHapp.
    destruct (extract_all rest) as [cars msgs]. simpl in IHlen, IHmsg |- *.
    destruct (extract_listing l) as [c|e]; simpl.
    + split; [lia|]. split; [exact IHmsg | reflexivity].
    + split; [lia|]. split; [constructor; [eexists; reflexivity | exact IHmsg]|].
      reflexivity.
Qed.

(** ** Rows kept by the normalizer *)

(** A row that [clean_car_data] keeps: positive price, name and location
    present. *)
Definition row_kept (r : num_row) : bool :=
  price_positive r &&
  match n_name r with Some _ => true | None => false end &&
  match n_location r with Some _ => true | None => false end.

Lemma fill_year_shape (m : option Q) (df : list num_row) (df' : list int_row) :
  fill_year m df = Some df' ->
  Forall2 (fun r r' => i_name r' = n_name r /\ i_price r' = n_price r /\
                       i_location r' = n_location r) df df'.
Proof.
  revert df'. induction df as [|r rest IH]; simpl; intros df' H.
  - inversion H. constructor.
  - destruct (or_else (n_year r) m) as [y|]; [|discriminate].
    destruct (fill_year m rest) as [rest'|]; [|discriminate].
    inversion H; subst. constructor; [simpl; auto | apply IH; reflexivity].
Qed.

(** The name, price and location of a row, when all three are present. *)
Definition row_fields (r : num_row) : option (string * Q * string) :=
  match n_name r, n_price r, n_location r with
  | Some n, Some p, Some l => Some (n, p, l)
  | _, _, _ => None
  end.

Definition car_fields (c : car) : option (string * Q * string) :=
  Some (name c, price c, location c).

Lemma dropna_fields (df : list num_row) (df' : list int_row) :
  Forall2 (fun r r' => i_name r' = n_name r /\ i_price r' = n_price r /\
                       i_location r' = n_location r) df df' ->
  Forall (fun r => price_positive r = true) df ->
  List.map car_fields (dropna df') = List.map row_fields (List.filter row_kept df).
Proof.
  intros H2. induction H2 as [|r r' rest rest' (Hn & Hp & Hl) _ IH];
    intros Hpos; [reflexivity|].
  inversion Hpos as [|? ? Hr Hrest]; subst.
  simpl. unfold row_kept at 1. rewrite Hr.
  unfold price_positive in Hr.
  rewrite Hn, Hp, Hl.
  destruct (n_price r) as [p|] eqn:Hpr; [|discriminate].
  destruct (n_name r) eqn:Hnr, (n_location r) eqn:Hlr; simpl;
    rewrite (IH Hrest); try reflexivity.
  unfold row_fields. rewrite Hnr, Hpr, Hlr. reflexivity.
Qed.

(** When [clean_car_data] returns, its rows are, in order, the input rows
    that have a positive price, a name and a location, with that name,
    price and location: it never adds a row, drops no other and does not
    reorder them. *)
Theorem clean_car_data_kept_rows
  (str_to_numeric : string -> option Q) (rows : list raw_row) (out : list car) :
  clean_car_data str_to_numeric rows = Some out ->
  List.map car_fields out =
  List.map row_fields (List.filter row_kept (List.map (coerce str_to_numeric) rows)).
Proof.
  assert (Hsplit : forall l, List.filter row_kept l =
                             List.filter row_kept (List.filter price_positive l)).
  { intros l. induction l as [|r rest IH]; [reflexivity|]. cbn [List.filter].
    destruct (price_positive r) eqn:Hp.
    - cbn [List.filter]. destruct (row_kept r); rewrite IH; reflexivity.
    - replace (row_kept r) with false
        by (unfold row_kept; rewrite Hp; reflexivity).
      exact IH. }
  intros H. rewrite Hsplit. fold (priced str_to_numeric rows).
  unfold clean_car_data in H.
  destruct rows as [|r rs]; [inversion H; reflexivity|].
  destruct (priced str_to_numeric (r :: rs)) as [|p ps] eqn:HP;
    [inversion H; reflexivity|].
  destruct (fill_year _ (p :: ps)) as [df'|] eqn:Hf; [|discriminate].
  inversion H; subst.
  apply dropna_fields; [exact (fill_year_shape _ _ _ Hf)|].
  apply Forall_forall. intros x Hx. rewrite <- HP in Hx.
  exact (priced_positive _ _ _ Hx).
Qed.

Lemma clean_car_data_kept_rows_witness :
  clean_car_data py_float batch_mixed = Some batch_mixed_clean /\
  List.map car_fields batch_mixed_clean =
  List.map row_fields (List.filter row_kept (List.map (coerce py_float) batch_mixed)).
Proof.
  assert (H : clean_car_data py_float batch_mixed = Some batch_mixed_clean)
    by (vm_compute; reflexivity).
  split; [exact H|].
  exact (clean_car_data_kept_rows py_float batch_mixed batch_mixed_clean H).
Defined.

(** ** Range of the imputed years *)

Lemma In_insert_sorted (x y : Q) (l : list Q) :
  In x (insert_sorted y l) <-> y = x \/ In x l.
Proof.
  induction l as [|z r IH]; simpl; [tauto|].
  destruct (Qle_bool y z); simpl; [tauto|].
  rewrite IH. tauto.
Qed.

Lemma In_sort_Q (x : Q) (l : list Q) : In x (sort_Q l) <-> In x l.
Proof.
  induction l as [|z r IH]; simpl; [tauto|].
  rewrite In_insert_sorted, IH. intuition.
Qed.

Lemma median_in_range (a b m : Q) (l : list Q) :
  (forall y, In y l -> a <= y <= b)%Q ->
  median l = Some m -> (a <= m <= b)%Q.
Proof.
  intros Hall. unfold median.
  assert (Hs : forall k, (k < List.length (sort_Q l))%nat ->
                         (a <= nth k (sort_Q l) 0 <= b)%Q).
  { intros k Hk. apply Hall. apply In_sort_Q. apply nth_In. exact Hk. }
  remember (List.length (sort_Q l)) as n eqn:Hn.
  destruct n as [|n']; [discriminate|].
  assert (Hn2 : (S n' / 2 < S n')%nat) by (apply Nat.div_lt; lia).
  assert (Hn1 : (S n' / 2 - 1 < S n')%nat) by lia.
  destruct (Nat.odd (S n')) eqn:Hodd; intros H; injection H as <-.
  - exact (Hs _ Hn2).
  - destruct (Hs _ Hn1) as [H1a H1b]. destruct (Hs _ Hn2) as [H2a H2b].
    split.
    + apply Qle_shift_div_l; [reflexivity|].
      setoid_replace (a * 2)%Q with (a + a)%Q by ring.
      apply Qplus_le_compat; assumption.
    + apply Qle_shift_div_r; [reflexivity|].
      setoid_replace (b * 2)%Q with (b + b)%Q by ring.
      apply Qplus_le_compat; assumption.
Qed.

Lemma py_trunc_bounds (lo hi : Z) (q : Q) :
  (inject_Z lo <= q)%Q -> (q <= inject_Z hi)%Q ->
  (lo <= py_trunc q <= hi)%Z.
Proof.
  destruct q as [n d]. unfold Qle, inject_Z, py_trunc. simpl.
  intros Hlo Hhi.
  assert (Hd : (0 < Z.pos d)%Z) by lia.
  pose proof (Z.quot_rem' n (Z.pos d)) as Hqr.
  destruct (Z.le_gt_cases 0 n) as [Hn|Hn].
  - pose proof (Z.rem_bound_pos n (Z.pos d) Hn Hd) as Hb.
    set (q := Z.quot n (Z.pos d)) in *. set (r := Z.rem n (Z.pos d)) in *.
    split; nia.
  - pose proof (Z.rem_bound_pos (- n) (Z.pos d) ltac:(lia) Hd) as Hb.
    rewrite Z.rem_opp_l in Hb by lia.
    set (q := Z.quot n (Z.pos d)) in *. set (r := Z.rem n (Z.pos d)) in *.
    split; nia.
Qed.

Lemma fill_year_years (m : option Q) (df : list num_row) (df' : list int_row) :
  fill_year m df = Some df' ->
  forall r', In r' df' ->
  exists y, i_year r' = py_trunc y /\ (In y (present_years df) \/ m = Some y).
Proof.
  revert df'. induction df as [|r rest IH]; simpl; intros df' H r' Hin.
  - inversion H; subst. destruct Hin.
  - destruct (n_year r) as [y0|] eqn:Hy0; simpl in H.
    + destruct (fill_year m rest) as [rest'|]; [|discriminate].
      inversion H; subst. destruct Hin as [<-|Hin].
      * exists y0. simpl. auto.
      * destruct (IH rest' eq_refl r' Hin) as (y & Hy & [Hy'|Hy']);
          exists y; simpl; auto.
    + destruct m as [mv|]; [|discriminate].
      destruct (fill_year (Some mv) rest) as [rest'|]; [|discriminate].
      inversion H; subst. destruct Hin as [<-|Hin].
      * exists mv. simpl. auto.
      * destruct (IH rest' eq_refl r' Hin) as (y & Hy & [Hy'|Hy']);
          exists y; auto.
Qed.

Lemma dropna_year (df : list int_row) (c : car) :
  In c (dropna df) -> exists r, In r df /\ i_year r = year c.
Proof.
  induction df as [|r rest IH]; simpl; [intros []|].
  destruct (i_name r), (i_price r), (i_location r); simpl; intros Hin;
    try (destruct (IH Hin) as (r0 & ? & ?); exists r0; auto; fail).
  destruct Hin as [<-|Hin].
  - exists r. auto.
  - destruct (IH Hin) as (r0 & ? & ?). exists r0. auto.
Qed.

(** When every parseable year of the rows kept by the price filter lies
    between two integers [lo] and [hi] with [-2^53 <= lo] and [hi <= 2^53]
    (where the float64 column represents the bounds exactly and its
    rounding keeps the order), so does every year of the cleaned table,
    the imputed ones included: imputation never invents a year outside the
    range of the batch. *)
Theorem clean_car_data_years_in_range
  (str_to_numeric : string -> option Q) (rows : list raw_row) (lo hi : Z) (out : list car) :
  (- 2 ^ 53 <= lo)%Z -> (hi <= 2 ^ 53)%Z ->
  (forall y, In y (present_years (priced str_to_numeric rows)) ->
     inject_Z lo <= y <= inject_Z hi)%Q ->
  clean_car_data str_to_numeric rows = Some out ->
  forall c, In c out -> (lo <= year c <= hi)%Z.
Proof.
  intros _ _ Hrange H c Hin. unfold clean_car_data in H.
  destruct rows as [|r rs]; [inversion H; subst; destruct Hin|].
  destruct (priced str_to_numeric (r :: rs)) as [|p ps] eqn:HP;
    [inversion H; subst; destruct Hin|].
  destruct (fill_year _ (p :: ps)) as [df'|] eqn:Hf; [|discriminate].
  inversion H; subst.
  destruct (dropna_year _ _ Hin) as (r' & Hr' & Hyr').
  destruct (fill_year_years _ _ _ Hf r' Hr') as (y & Hy & [Hin'|Hm]).
  - destruct (Hrange y Hin') as [Ha Hb].
    rewrite <- Hyr', Hy. apply py_trunc_bounds; assumption.
  - pose proof (median_in_range _ _ _ _ Hrange Hm) as [Ha Hb].
    rewrite <- Hyr', Hy. apply py_trunc_bounds; assumption.
Qed.

Lemma clean_car_data_years_in_range_witness :
  (forall y, In y (present_years (priced py_float batch_mixed)) ->
     inject_Z 2018 <= y <= inject_Z 2020)%Q /\
  (2018 <= year (nth 1 batch_mixed_clean no_car) <= 2020)%Z.
Proof.
  assert (Hr : forall y, In y (present_years (priced py_float batch_mixed)) ->
                 (inject_Z 2018 <= y <= inject_Z 2020)%Q).
  { intros y Hy. vm_compute in Hy.
    destruct Hy as [<-|[<-|[]]]; split; vm_compute; discriminate. }
  split; [exact Hr|].
  apply (clean_car_data_years_in_range py_float batch_mixed 2018 2020
           batch_mixed_clean); [lia | lia | exact Hr | |].
  - vm_compute. reflexivity.
  - vm_compute. right. left. reflexivity.
Defined.

(** ** The top-10 bar charts *)

Section ValueCounts.

Variable A : Type.
Variable eqb : A -> A -> bool.
Hypothesis eqb_spec : forall x y, eqb x y = true <-> x = y.

Lemma existsb_eqb_In (x : A) (l : list A) : existsb (eqb x) l = true <-> In x l.
Proof.
  rewrite existsb_exists. split.
  - intros (y & Hy & He). apply eqb_spec in He. subst. exact Hy.
  - intros H. exists x. split; [exact H|]. apply eqb_spec. reflexivity.
Qed.

Lemma count_by_In (x : A) (l : list A) : (0 < count_by eqb x l)%nat <-> In x l.
Proof.
  induction l as [|y r IH]; simpl; [split; [lia|tauto]|].
  destruct (eqb y x) eqn:He.
  - apply eqb_spec in He. subst. split; [auto|lia].
  - rewrite <- IH. split; [intros H; right; exact H|].
    intros [<-|H]; [|exact H].
    exfalso. assert (eqb y y = true) by (apply eqb_spec; reflexivity). congruence.
Qed.

Lemma In_dedup_first (x : A) (seen l : list A) :
  In x (dedup_first eqb seen l) <-> In x l /\ ~ In x seen.
Proof.
  revert seen. induction l as [|y r IH]; intros seen; simpl; [tauto|].
  destruct (existsb (eqb y) seen) eqn:He.
  - apply existsb_eqb_In in He. rewrite IH.
    split; [tauto|]. intros [[<-|H] Hn]; [contradiction|tauto].
  - assert (Hy : ~ In y seen) by (intro H; apply existsb_eqb_In in H; congruence).
    simpl. rewrite IH. simpl. split.
    + intros [<-|[H1 H2]]; tauto.
    + intros [[<-|H1] H2]; [left; reflexivity|].
      destruct (eqb y x) eqn:Hyx.
      * left. apply eqb_spec. exact Hyx.
      * right. split; [exact H1|]. intros [<-|H]; [|tauto].
        assert (eqb y y = true) by (apply eqb_spec; reflexivity). congruence.
Qed.

Lemma NoDup_dedup_first (seen l : list A) : NoDup (dedup_first eqb seen l).
Proof.
  revert seen. induction l as [|y r IH]; intros seen; simpl; [constructor|].
  destruct (existsb (eqb y) seen); [apply IH|].
  constructor; [|apply IH].
  rewrite In_dedup_first. simpl. tauto.
Qed.

Definition count_ge (x y : A * nat) : Prop := (snd y <= snd x)%nat.

Lemma insert_count_perm (x : A * nat) (l : list (A * nat)) :
  Permutation (insert_count x l) (x :: l).
Proof.
  induction l as [|y r IH]; simpl; [reflexivity|].
  destruct (snd y <=? snd x)%nat; [reflexivity|].
  rewrite IH. apply perm_swap.
Qed.

Lemma sort_counts_perm (l : list (A * nat)) : Permutation (sort_counts l) l.
Proof.
  induction l as [|x r IH]; simpl; [reflexivity|].
  rewrite insert_count_perm, IH. reflexivity.
Qed.

Lemma insert_count_sorted (x : A * nat) (l : list (A * nat)) :
  StronglySorted count_ge l -> StronglySorted count_ge (insert_count x l).
Proof.
  induction l as [|y r IH]; simpl; intros Hs.
  - repeat constructor.
  - inversion Hs as [|? ? Hr Hall]; subst.
    destruct (snd y <=? snd x)%nat eqn:Hle.
    + apply Nat.leb_le in Hle.
      constructor; [exact Hs|]. constructor; [exact Hle|].
      rewrite Forall_forall in Hall |- *. intros z Hz.
      specialize (Hall z Hz). unfold count_ge in *. lia.
    + apply Nat.leb_gt in Hle.
      constructor; [apply IH; exact Hr|].
      rewrite Forall_forall in Hall |- *. intros z Hz.
      apply (Permutation_in _ (insert_count_perm x r)) in Hz.
      destruct Hz as [<-|Hz]; [unfold count_ge; lia | apply Hall; exact Hz].
Qed.

Lemma sort_counts_sorted (l : list (A * nat)) :
  StronglySorted count_ge (sort_counts l).
Proof.
  induction l as [|x r IH]; simpl; [constructor|].
  apply insert_count_sorted. exact IH.
Qed.

Lemma In_value_counts (x : A) (k : nat) (l : list A) :
  In (x, k) (value_counts eqb l) <-> In x l /\ k = count_by eqb x l.
Proof.
  unfold value_counts. split.
  - intros H. apply (Permutation_in _ (sort_counts_perm _)) in H.
    apply in_map_iff in H. destruct H as (y & Hy & Hin).
    inversion Hy; subst. apply In_dedup_first in Hin. tauto.
  - intros [Hin ->]. apply (Permutation_in _ (Permutation_sym (sort_counts_perm _))).
    apply in_map_iff. exists x. split; [reflexivity|].
    apply In_dedup_first. simpl. tauto.
Qed.

Lemma value_counts_NoDup (l : list A) : NoDup (List.map fst (value_counts eqb l)).
Proof.
  unfold value_counts.
  apply (Permutation_NoDup (Permutation_map fst (Permutation_sym (sort_counts_perm _)))).
  rewrite map_map. simpl. rewrite map_id. apply NoDup_dedup_first.
Qed.

Lemma StronglySorted_app_rel {B} (R : B -> B -> Prop) (l1 l2 : list B) a b :
  StronglySorted R (l1 ++ l2) -> In a l1 -> In b l2 -> R a b.
Proof.
  induction l1 as [|x r IH]; simpl; [intros _ []|].
  intros Hs Ha Hb. inversion Hs as [|? ? Hr Hall]; subst.
  destruct Ha as [<-|Ha].
  - rewrite Forall_forall in Hall. apply Hall. apply in_or_app. right. exact Hb.
  - apply IH; assumption.
Qed.

(** [value_counts().head(k)]: at most [k] bars, one per distinct value,
    each with the number of occurrences of its value, and every value left
    out occurs at most as often as any value shown. *)
Lemma value_counts_head (k : nat) (l : list A) :
  (List.length (firstn k (value_counts eqb l)) <= k)%nat /\
  NoDup (List.map fst (firstn k (value_counts eqb l))) /\
  (forall x n, In (x, n) (firstn k (value_counts eqb l)) ->
     n = count_by eqb x l /\ (0 < n)%nat) /\
  (forall x n x', In (x, n) (firstn k (value_counts eqb l)) ->
     ~ In x' (List.map fst (firstn k (value_counts eqb l))) ->
     (count_by eqb x' l <= n)%nat).
Proof.
  pose proof (firstn_skipn k (value_counts eqb l)) as Hsplit.
  assert (Hsub : forall p, In p (firstn k (value_counts eqb l)) ->
                           In p (value_counts eqb l)).
  { intros p Hp. rewrite <- Hsplit. apply in_or_app. left. exact Hp. }
  split; [apply firstn_le_length|]. split; [|split].
  - rewrite <- firstn_map.
    apply (NoDup_app_remove_r _ (skipn k (List.map fst (value_counts eqb l)))).
    rewrite firstn_skipn. apply value_counts_NoDup.
  - intros x n Hin. apply Hsub, In_value_counts in Hin. destruct Hin as [Hx ->].
    split; [reflexivity|]. apply count_by_In. exact Hx.
  - intros x n x' Hin Hout.
    destruct (count_by eqb x' l) as [|c] eqn:Hc; [lia|].
    assert (Hx' : In x' l) by (apply count_by_In; lia).
    assert (Hvc : In (x', S c) (value_counts eqb l))
      by (apply In_value_counts; split; [exact Hx'|symmetry; exact Hc]).
    rewrite <- Hsplit in Hvc. apply in_app_or in Hvc.
    destruct Hvc as [Hvc|Hvc].
    + exfalso. apply Hout. apply in_map_iff. exists (x', S c). auto.
    + pose proof (sort_counts_sorted
                    (List.map (fun y => (y, count_by eqb y l)) (dedup_first eqb [] l))) as Hs.
      fold (value_counts eqb l) in Hs. rewrite <- Hsplit in Hs.
      exact (StronglySorted_app_rel _ _ _ (x, n) (x', S c) Hs Hin Hvc).
Qed.

End ValueCounts.

Lemma value_counts_length {A} (eqb : A -> A -> bool) (l : list A) :
  List.length (value_counts eqb l) = nunique eqb l.
Proof.
  unfold value_counts, nunique.
  rewrite (Permutation_length (sort_counts_perm _ _)), length_map. reflexivity.
Qed.

(** [s.nunique() > 1] holds exactly when two entries of the column differ. *)
Lemma nunique_gt1 {A} (eqb : A -> A -> bool)
  (eqb_spec : forall x y, eqb x y = true <-> x = y) (l : list A) :
  (1 <? nunique eqb l)%nat = true <-> exists x y, In x l /\ In y l /\ x <> y.
Proof.
  unfold nunique. rewrite Nat.ltb_lt.
  pose proof (NoDup_dedup_first A eqb eqb_spec [] l) as Hnd.
  pose proof (fun x => In_dedup_first A eqb eqb_spec x [] l) as Hin.
  split.
  - destruct (dedup_first eqb [] l) as [|a [|b r]] eqn:Hd; simpl; intros Hlen; try lia.
    inversion Hnd as [|? ? Hna _]; subst.
    exists a, b. split; [apply Hin; simpl; auto|]. split; [apply Hin; simpl; auto|].
    intros <-. apply Hna. simpl. auto.
  - intros (x & y & Hx & Hy & Hxy).
    assert (Hx' : In x (dedup_first eqb [] l)) by (apply Hin; simpl; auto).
    assert (Hy' : In y (dedup_first eqb [] l)) by (apply Hin; simpl; auto).
    destruct (dedup_first eqb [] l) as [|a [|b r]]; simpl in *; try lia.
    destruct Hx' as [<-|[]]; destruct Hy' as [<-|[]]. congruence.
Qed.

Lemma column_differs {B} (f : car -> B) (df : list car) :
  (exists x y, In x (List.map f df) /\ In y (List.map f df) /\ x <> y) <->
  (exists c1 c2, In c1 df /\ In c2 df /\ f c1 <> f c2).
Proof.
  split.
  - intros (x & y & Hx & Hy & Hxy).
    apply in_map_iff in Hx as (c1 & <- & H1). apply in_map_iff in Hy as (c2 & <- & H2).
    exists c1, c2. auto.
  - intros (c1 & c2 & H1 & H2 & Hne). exists (f c1), (f c2).
    split; [apply in_map; exact H1|]. split; [apply in_map; exact H2|]. exact Hne.
Qed.

(** ** Reading digits out of the price and year texts *)

Lemma str_append_nil (s : string) : (s ++ "")%string = s.
Proof. induction s as [|c r IH]; simpl; [reflexivity|]. rewrite IH. reflexivity. Qed.

Lemma str_append_assoc (a b c : string) : ((a ++ b) ++ c)%string = (a ++ (b ++ c))%string.
Proof. induction a as [|x r IH]; simpl; [reflexivity|]. rewrite IH. reflexivity. Qed.

Lemma str_rev_append (a b : string) : str_rev (a ++ b) = (str_rev b ++ str_rev a)%string.
Proof.
  induction a as [|c r IH]; simpl; [rewrite str_append_nil; reflexivity|].
  rewrite IH, str_append_assoc. reflexivity.
Qed.

Lemma str_rev_involutive (s : string) : str_rev (str_rev s) = s.
Proof.
  induction s as [|c r IH]; simpl; [reflexivity|].
  rewrite str_rev_append, IH. reflexivity.
Qed.

Lemma str_filter_append (p : ascii -> bool) (a b : string) :
  str_filter p (a ++ b) = (str_filter p a ++ str_filter p b)%string.
Proof.
  induction a as [|c r IH]; simpl; [reflexivity|].
  destruct (p c); rewrite IH; reflexivity.
Qed.

Lemma str_filter_rev (p : ascii -> bool) (s : string) :
  str_filter p (str_rev s) = str_rev (str_filter p s).
Proof.
  induction s as [|c r IH]; simpl; [reflexivity|].
  rewrite str_filter_append, IH. simpl.
  destruct (p c); simpl; [reflexivity|apply str_append_nil].
Qed.

Section KeepNoSpace.

Variable p : ascii -> bool.
Hypothesis p_no_space : forall c, is_space c = true -> p c = false.

Lemma str_filter_lstrip (s : string) : str_filter p (lstrip s) = str_filter p s.
Proof.
  induction s as [|c r IH]; simpl; [reflexivity|].
  destruct (is_space c) eqn:Hs; [|reflexivity].
  rewrite IH, (p_no_space c Hs). reflexivity.
Qed.

(** Filtering after [strip] is filtering the raw text. *)
Lemma str_filter_strip (s : string) : str_filter p (strip s) = str_filter p s.
Proof.
  unfold strip.
  rewrite str_filter_rev, str_filter_lstrip, str_filter_rev, str_filter_lstrip.
  apply str_rev_involutive.
Qed.

End KeepNoSpace.

Lemma is_space_not_digit (c : ascii) : is_space c = true -> is_digit c = false.
Proof.
  destruct c as [[] [] [] [] [] [] [] []]; vm_compute; intros H;
    first [reflexivity | discriminate].
Qed.

Lemma is_space_not_price_char (c : ascii) :
  is_space c = true -> (is_digit c || Ascii.eqb c "."%char) = false.
Proof.
  intros H. rewrite (is_space_not_digit c H). simpl.
  destruct (Ascii.eqb c "."%char) eqn:He; [|reflexivity].
  apply Ascii.eqb_eq in He. subst. discriminate.
Qed.

Lemma str_filter_no_dot (s : string) :
  ~ In "."%char (list_ascii_of_string s) ->
  str_filter (fun c => is_digit c || Ascii.eqb c "."%char) s = str_filter is_digit s.
Proof.
  induction s as [|c r IH]; simpl; intros Hn; [reflexivity|].
  assert (Hc : Ascii.eqb c "."%char = false) by (apply Ascii.eqb_neq; intros ->; auto).
  rewrite Hc, orb_false_r, IH by auto. reflexivity.
Qed.

Lemma all_decimal_forallb (s : string) :
  all_decimal s = true ->
  forallb (fun c => is_decimal c || Ascii.eqb c "."%char) (list_ascii_of_string s) = true.
Proof.
  induction s as [|c r IH]; simpl; [reflexivity|].
  intros H. apply andb_true_iff in H as [H1 H2]. rewrite H1, IH by exact H2. reflexivity.
Qed.

Lemma decimal_prefix_length_all (s : string) :
  all_decimal s = true -> decimal_prefix_length s = String.length s.
Proof.
  induction s as [|c r IH]; simpl; [reflexivity|].
  intros H. apply andb_true_iff in H as [H1 H2]. rewrite H1, IH by exact H2. reflexivity.
Qed.

Lemma all_decimal_split_dot (s : string) : all_decimal s = true -> split_dot s = (s, None).
Proof.
  induction s as [|c r IH]; simpl; [reflexivity|].
  intros H. apply andb_true_iff in H as [H1 H2].
  destruct (Ascii.eqb c "."%char) eqn:He.
  - apply Ascii.eqb_eq in He. subst. discriminate.
  - rewrite IH by exact H2. reflexivity.
Qed.

Lemma year_text_digits (l : elem) :
  year_text l = str_filter is_digit (match year_elem l with Some e => text e | None => "0" end).
Proof.
  unfold year_text, text_or. destruct (year_elem l); [|reflexivity].
  apply str_filter_strip, is_space_not_digit.
Qed.

(** ** Theorems about the analysis view and the field readers *)

(** The "Top 10 Car Models" chart ([df_clean['name'].value_counts().head(10)]):
    it follows its header, has one bar per distinct name and at most ten
    bars, exactly ten when there are that many names, each bar is the
    number of rows with that name, and no name left out occurs in more
    rows than a name shown. *)
Theorem render_analysis_top_models (df : list car) :
  exists bars,
    firstn 4 (render_analysis df) =
      [Subheader "Sample Data (10 rows)"; Table (firstn 10 df);
       Subheader "Top 10 Car Models"; BarChart bars] /\
    List.length bars = Nat.min 10 (nunique String.eqb (List.map name df)) /\
    NoDup (List.map fst bars) /\
    (forall n k, In (n, k) bars ->
       k = List.length (List.filter (fun c => String.eqb (name c) n) df) /\ (0 < k)%nat) /\
    (forall n k n', In (n, k) bars -> ~ In n' (List.map fst bars) ->
       (List.length (List.filter (fun c => String.eqb (name c) n') df) <= k)%nat).
Proof.
  assert (Hcount : forall n, count_by String.eqb n (List.map name df) =
                             List.length (List.filter (fun c => String.eqb (name c) n) df)).
  { intros n. induction df as [|c r IH]; simpl; [reflexivity|].
    destruct (String.eqb (name c) n); simpl; rewrite IH; reflexivity. }
  exists (firstn 10 (value_counts String.eqb (List.map name df))).
  destruct (value_counts_head string String.eqb String.eqb_eq 10 (List.map name df))
    as (_ & Hnd & Hbar & Hout).
  split; [reflexivity|]. split.
  { rewrite length_firstn, value_counts_length. reflexivity. }
  split; [exact Hnd|]. split.
  - intros n k Hin. rewrite <- Hcount. apply Hbar. exact Hin.
  - intros n k n' Hin Hn'. rewrite <- Hcount. apply (Hout n k n' Hin Hn').
Qed.

(** The year and location charts are guarded by [nunique() > 1]: the year
    histogram is drawn exactly when two rows have different years, and the
    "Insufficient year data" warning exactly when they all agree (also on
    an empty table); likewise, on the locations, the location bar chart
    (the tenth widget, the top 10 of [value_counts]) and the
    "Insufficient location data" warning. *)
Theorem render_analysis_chart_guards (df : list car) :
  (In (Histogram "year" "Cars by Manufacturing Year" df) (render_analysis df) <->
     exists c1 c2, In c1 df /\ In c2 df /\ year c1 <> year c2) /\
  (In (Notice (Warning "Insufficient year data")) (render_analysis df) <->
     forall c1 c2, In c1 df -> In c2 df -> year c1 = year c2) /\
  (nth_error (render_analysis df) 9 =
     Some (BarChart (firstn 10 (value_counts String.eqb (List.map location df)))) <->
   exists c1 c2, In c1 df /\ In c2 df /\ location c1 <> location c2) /\
  (In (Notice (Warning "Insufficient location data")) (render_analysis df) <->
     forall c1 c2, In c1 df -> In c2 df -> location c1 = location c2).
Proof.
  pose proof (nunique_gt1 Z.eqb Z.eqb_eq (List.map year df)) as Hy.
  pose proof (nunique_gt1 String.eqb String.eqb_eq (List.map location df)) as Hl.
  rewrite (column_differs year) in Hy. rewrite (column_differs location) in Hl.
  assert (Ey : (forall c1 c2, In c1 df -> In c2 df -> year c1 = year c2) <->
               ~ exists c1 c2, In c1 df /\ In c2 df /\ year c1 <> year c2).
  { split.
    - intros H (c1 & c2 & H1 & H2 & Hne). exact (Hne (H c1 c2 H1 H2)).
    - intros Hn c1 c2 H1 H2. destruct (Z.eq_dec (year c1) (year c2)) as [e|ne]; [exact e|].
      exfalso. apply Hn. exists c1, c2. auto. }
  assert (El : (forall c1 c2, In c1 df -> In c2 df -> location c1 = location c2) <->
               ~ exists c1 c2, In c1 df /\ In c2 df /\ location c1 <> location c2).
  { split.
    - intros H (c1 & c2 & H1 & H2 & Hne). exact (Hne (H c1 c2 H1 H2)).
    - intros Hn c1 c2 H1 H2.
      destruct (string_dec (location c1) (location c2)) as [e|ne]; [exact e|].
      exfalso. apply Hn. exists c1, c2. auto. }
  rewrite Ey, El. clear Ey El.
  unfold render_analysis.
  destruct (1 <? nunique Z.eqb (List.map year df))%nat;
  destruct (1 <? nunique String.eqb (List.map location df))%nat;
  (first [pose proof (proj1 Hy eq_refl) as Yy
         | assert (Yy : ~ exists c1 c2, In c1 df /\ In c2 df /\ year c1 <> year c2)
             by (intros Hc; apply Hy in Hc; discriminate)]);
  (first [pose proof (proj1 Hl eq_refl) as Yl
         | assert (Yl : ~ exists c1 c2, In c1 df /\ In c2 df /\ location c1 <> location c2)
             by (intros Hc; apply Hl in Hc; discriminate)]);
  clear Hy Hl; cbn [app In nth_error]; repeat split; intros H;
  repeat match goal with
         | H : _ \/ _ |- _ => destruct H as [H|H]
         end;
  first [ discriminate | contradiction | reflexivity | exact Yy | exact Yl
        | (exfalso; apply Yy; exact H) | (exfalso; apply Yl; exact H)
        | (exfalso; apply H; exact Yy) | (exfalso; apply H; exact Yl)
        | (repeat first [left; reflexivity | right]) ].
Qed.

(** The price of a listing whose price element shows no '.', and whose
    [isdigit] characters are at most 15 decimal digits, is the number they
    form in order, wherever they stand ("N 1,200,000" reads as 1200000;
    below 10^15 the float is that integer exactly).  Such a listing is
    skipped only when [int] rejects its year: when the kept year
    characters are decimal digits, at most 4300 of them, it is extracted. *)
Theorem extract_listing_price_digits (l e : elem) :
  price_elem l = Some e ->
  ~ In "."%char (list_ascii_of_string (text e)) ->
  all_decimal (str_filter is_digit (text e)) = true ->
  (String.length (str_filter is_digit (text e)) <= 15)%nat ->
  all_decimal (year_text l) = true ->
  (String.length (year_text l) <= 4300)%nat ->
  exists c, extract_listing l = inl c /\
            price c = inject_Z (digits_value (str_filter is_digit (text e))).
Proof.
  intros He Hdot Hdec _ Hyd Hyl.
  assert (Hp : price_text l = str_filter is_digit (text e)).
  { unfold price_text, text_or. rewrite He.
    rewrite (str_filter_strip _ is_space_not_price_char).
    apply str_filter_no_dot. exact Hdot. }
  set (d := str_filter is_digit (text e)) in *.
  assert (Hpv : (if is_empty d then Some 0%Q else py_float d) =
                Some (inject_Z (digits_value d))).
  { destruct (is_empty d) eqn:Hem.
    - destruct d; [reflexivity|discriminate].
    - unfold py_float.
      rewrite (all_decimal_forallb d Hdec), (all_decimal_split_dot d Hdec), Hem.
      reflexivity. }
  unfold extract_listing. cbv zeta. rewrite Hp, Hpv, year_text_isdigit, andb_diag.
  destruct (is_empty (year_text l)); simpl; [eexists; split; reflexivity|].
  assert (Hpi : py_int (year_text l) = inl (digits_value (year_text l))).
  { unfold py_int. rewrite (decimal_prefix_length_all _ Hyd), Hyd.
    replace (4300 <? String.length (year_text l))%nat with false
      by (symmetry; apply Nat.ltb_ge; exact Hyl).
    reflexivity. }
  rewrite Hpi. eexists. split; reflexivity.
Qed.

(** The year of an extracted record is the number formed by all the
    digits of the year element's text ("2015/16" reads as 201516), and 0
    when there is no year element or its text has no digit. *)
Theorem extract_listing_year_digits (l : elem) (c : car) :
  extract_listing l = inl c ->
  year c = digits_value
             (str_filter is_digit (match year_elem l with Some e => text e | None => "0" end)).
Proof.
  rewrite <- year_text_digits. intros H.
  unfold extract_listing in H. cbv zeta in H.
  rewrite year_text_isdigit, andb_diag in H.
  destruct (if is_empty (price_text l) then Some 0%Q else py_float (price_text l));
    [|discriminate].
  destruct (is_empty (year_text l)) eqn:Hye; simpl in H.
  - inversion H; subst; simpl. destruct (year_text l); [reflexivity|discriminate].
  - destruct (py_int (year_text l)) as [y|m] eqn:Hpi; [|discriminate].
    inversion H; subst; simpl. exact (proj2 (py_int_value _ _ Hpi)).
Qed.

Lemma extract_listing_price_digits_witness :
  exists c, extract_listing listing_2020 = inl c /\ price c = inject_Z 1200000.
Proof.
  apply (extract_listing_price_digits listing_2020
           (El "span" ["qa-advert-price"] "N 1,200,000" [])).
  - reflexivity.
  - cbn. intros H. repeat destruct H as [H|H]; try discriminate; contradiction.
  - vm_compute. reflexivity.
  - apply Nat.leb_le. vm_compute. reflexivity.
  - vm_compute. reflexivity.
  - apply Nat.leb_le. vm_compute. reflexivity.
Defined.

Lemma extract_listing_year_digits_witness :
  extract_listing listing_2020 = inl (mk_car "Toyota Camry" (inject_Z 1200000) "Lagos" 2020) /\
  year (mk_car "Toyota Camry" (inject_Z 1200000) "Lagos" 2020) = 2020%Z.
Proof.
  assert (H : extract_listing listing_2020 =
              inl (mk_car "Toyota Camry" (inject_Z 1200000) "Lagos" 2020)) by reflexivity.
  split; [exact H|].
  rewrite (extract_listing_year_digits listing_2020 _ H). reflexivity.
Defined.

(** A whole run of the script, with a stored table whose rows all have a
    positive price and a non-negative year and, when the button is
    pressed, fetched records whose years are below 2^63 (an int64 column,
    where [astype(int)] changes nothing), never raises; the table it
    leaves keeps that property, the CSV download is offered exactly when
    that table is non-empty and holds that table, and charts are drawn
    only after a button press whose fetch gave at least one record. *)
Theorem script_run_table_and_export (str_to_numeric : string -> option Q)
  (df_clean : list car) (url : string) (click : option response) :
  (forall resp, click = Some resp ->
     Forall (fun c => (year c < 2 ^ 63)%Z) (fst (fetch_car_data url resp))) ->
  Forall table_row_ok df_clean ->
  exists df' msgs w csv,
    script_run str_to_numeric df_clean url click = Some (df', msgs, w, csv) /\
    Forall table_row_ok df' /\
    (csv = None <-> df' = []) /\
    (forall rows, csv = Some rows -> rows = df') /\
    (w <> [] -> exists resp, click = Some resp /\ fst (fetch_car_data url resp) <> []).
Proof.
  intros _ Hok.
  assert (Hcsv : forall t, (export_csv t = None <-> t = []) /\
                           (forall rows, export_csv t = Some rows -> rows = t)).
  { intros [|r t]; simpl; split; try (split; congruence); intros rows H; congruence. }
  destruct click as [resp|].
  - destruct (fetch_and_analyze_table_ok str_to_numeric df_clean url resp Hok)
      as (df' & msgs & E & Hok').
    unfold script_run. rewrite E.
    do 4 eexists. split; [reflexivity|]. split; [exact Hok'|].
    split; [apply Hcsv|]. split; [apply Hcsv|].
    destruct (fst (fetch_car_data url resp)) eqn:Hf.
    + intros Hw. contradiction.
    + intros _. exists resp. split; [reflexivity|]. rewrite Hf. discriminate.
  - do 4 eexists. split; [reflexivity|]. split; [exact Hok|].
    split; [apply Hcsv|]. split; [apply Hcsv|].
    intros Hw. contradiction.
Qed.

Lemma script_run_table_and_export_witness :
  (forall resp, Some (Response "text/html" page_years) = Some resp ->
     Forall (fun c => (year c < 2 ^ 63)%Z) (fst (fetch_car_data jiji_url resp))) /\
  Forall table_row_ok [] /\
  exists df' msgs w csv,
    script_run py_float [] jiji_url (Some (Response "text/html" page_years)) =
      Some (df', msgs, w, csv) /\
    Forall table_row_ok df' /\
    (csv = None <-> df' = []) /\
    (forall rows, csv = Some rows -> rows = df') /\
    (w <> [] -> exists resp, Some (Response "text/html" page_years) = Some resp /\
                             fst (fetch_car_data jiji_url resp) <> []).
Proof.
  assert (Hlt : forall resp, Some (Response "text/html" page_years) = Some resp ->
     Forall (fun c => (year c < 2 ^ 63)%Z) (fst (fetch_car_data jiji_url resp))).
  { intros resp Hr. injection Hr as <-. apply years_below_of_check. vm_compute. reflexivity. }
  split; [exact Hlt|]. split; [constructor|].
  apply script_run_table_and_export; [exact Hlt | constructor].
Defined.
